(** * mathe_core_mlib: unit converters and experiment folders

    A shallow embedding of [mathe_core_mlib.math.converters] and
    [mathe_core_mlib.io.folders], with the properties stated about them.

    Conventions.
    - A Python [float] and a NumPy [float64] are IEEE-754 binary64 values:
      Rocq's primitive [float].
    - [np.log10] and the power operator [**] are not part of the kernel's
      float operations; they are section variables of the converters.
    - Python exceptions are modelled by the [outcome] type; warnings, printed
      lines and system calls are recorded in explicit state.
    - A [str] is modelled by the bytes of its UTF-8 encoding; paths follow
      [posixpath], whose separator is one byte that occurs in no other
      character.
    - [str.lower] and [str.capitalize] are fixed on ASCII text only and are
      left open on any other text (class [StrMethods]). *)

From Stdlib Require Import String Ascii List Bool ZArith Lia.
From Stdlib Require Import Floats.PrimFloat Floats.SpecFloat Floats.FloatOps.
From Stdlib Require Import Floats.FloatAxioms.
Import ListNotations.

Local Open Scope string_scope.
Local Open Scope list_scope.

(** ** Exceptions *)

(** The [OSError] subclasses that the modelled library calls can raise. *)
Inductive oserror_kind :=
| EFileNotFound | EFileExists | ENotADirectory | EIsADirectory
| EPermission | ESameFile | ENotEmpty | EOther.

(** [OSErr k msg] stands for every subclass of [OSError]: [except OSError]
    catches all of them. [ValueError] stands for its subclasses too
    ([UnicodeEncodeError]); it is not an [OSError]. *)
Inductive exn :=
| ValueError (msg : string)
| OverflowError (msg : string)
| OSErr (kind : oserror_kind) (msg : string).

Inductive outcome (A : Type) :=
| Return (a : A)
| Raise (e : exn).
Arguments Return {A} a.
Arguments Raise {A} e.

Definition is_OSError (e : exn) : bool :=
  match e with OSErr _ _ => true | _ => false end.

(** ** Unit converters *)

Module Converters.

(** *** NumPy values *)

(** An array of [dtype=float]: zero-dimensional, or with shape [d :: ds] and
    its elements in row-major order. *)
Inductive ndarray :=
| Arr0 (x : float)
| ArrN (d : nat) (ds : list nat) (elems : list float).

Definition shape (a : ndarray) : list nat :=
  match a with Arr0 _ => [] | ArrN d ds _ => d :: ds end.

Definition ndim (a : ndarray) : nat := length (shape a).

Definition data (a : ndarray) : list float :=
  match a with Arr0 x => [x] | ArrN _ _ l => l end.

(** What a NumPy operation returns: a [float64] scalar or an array. *)
Inductive npvalue :=
| NpFloat64 (x : float)
| NdArray (a : ndarray).

(** What a converter returns: a Python [float] (from [.item()]) or a NumPy
    value. *)
Inductive pyvalue :=
| PyFloat (x : float)
| Np (v : npvalue).

(** [ArrayLike = Union[float, int, List[float], np.ndarray]] *)
Inductive ArrayLike :=
| AFloat (x : float)
| AInt (n : Z)
| AList (l : list float)
| AArray (a : ndarray).

(** Conversion of a Python [int] to a double: round to nearest even;
    [OverflowError] when the integer is out of range. *)
Definition int_to_float (n : Z) : outcome float :=
  let x := SF2Prim (binary_normalize prec emax n 0 false) in
  if is_infinity x
  then Raise (OverflowError "int too large to convert to float")
  else Return x.

(** [np.asanyarray(value, dtype=float)] *)
Definition asanyarray (value : ArrayLike) : outcome ndarray :=
  match value with
  | AFloat x => Return (Arr0 x)
  | AInt n =>
      match int_to_float n with
      | Return x => Return (Arr0 x)
      | Raise e => Raise e
      end
  | AList l => Return (ArrN (length l) [] l)
  | AArray a => Return a
  end.

(** An elementwise operation on an array: NumPy hands back a [float64] scalar
    for a zero-dimensional operand and an array of the same shape otherwise. *)
Definition ufunc (f : float -> float) (a : ndarray) : npvalue :=
  match a with
  | Arr0 x => NpFloat64 (f x)
  | ArrN d ds l => NdArray (ArrN d ds (map f l))
  end.

(** The same on the result of an earlier operation. *)
Definition np_map (f : float -> float) (v : npvalue) : npvalue :=
  match v with
  | NpFloat64 x => NpFloat64 (f x)
  | NdArray a => ufunc f a
  end.

(** [np.any(value <= 0)] *)
Definition any_le0 (a : ndarray) : bool :=
  existsb (fun x => PrimFloat.leb x 0%float) (data a).

(** [result.item() if result.ndim == 0 else result] *)
Definition item_if_0d (result : npvalue) : pyvalue :=
  match result with
  | NpFloat64 x => PyFloat x
  | NdArray (Arr0 x) => PyFloat x
  | NdArray a => Np (NdArray a)
  end.

(** *** Computations that may warn or raise *)

(** A computation yields an outcome and the messages this module passed to
    [warnings.warn], oldest first: the validation warnings. They are the only
    warnings recorded. The [RuntimeWarning]s that NumPy itself may emit during
    the arithmetic (an overflow, which [np.errstate(divide=..)] does not
    silence, or any floating-point exception in the functions that have no
    [np.errstate]) are no part of the model, and no statement below speaks of
    them. *)
Definition W (A : Type) : Type := outcome A * list string.

Definition ret {A} (a : A) : W A := (Return a, []).
Definition raise {A} (e : exn) : W A := (Raise e, []).
Definition warn (msg : string) : W unit := (Return tt, [msg]).
Definition lift {A} (o : outcome A) : W A := (o, []).

Definition bind {A B} (m : W A) (k : A -> W B) : W B :=
  match m with
  | (Return a, ws) => let (r, ws') := k a in (r, ws ++ ws')
  | (Raise e, ws) => (Raise e, ws)
  end.

Declare Scope conv_scope.
Delimit Scope conv_scope with conv.
Notation "x <- m ;; k" := (bind m (fun x => k))
  (at level 61, m at next level, right associativity) : conv_scope.
Notation "m ;;; k" := (bind m (fun _ => k))
  (at level 61, right associativity) : conv_scope.
Local Open Scope conv_scope.

(** *** The validation step *)

Definition invalid_msg (context : string) : string :=
  "Entrada inválida em '" ++ context
  ++ "': valores devem ser estritamente positivos (> 0). "
  ++ "Encontrados valores <= 0 ou NaN.".

(** [_validate_positive(value, mode, context)]; [mode] is the Python string the
    caller passed. *)
Definition _validate_positive (value : ndarray) (mode : string)
    (context : string) : W unit :=
  if mode =? "ignore" then ret tt
  else if any_le0 value then
    let msg := invalid_msg context in
    if mode =? "raise" then raise (ValueError msg)
    else if mode =? "warn" then warn msg
    else ret tt
  else ret tt.

(** [scipy.constants.c] *)
Definition SPEED_OF_LIGHT : float := 299792458%float.

(** The double that the literal [1e-9] denotes. *)
Definition nano : float := 0x1.12e0be826d695p-30%float.

Section Formulas.

(** [np.log10] on one element, and [x ** y] on doubles. *)
Variable log10 : float -> float.
Variable pow : float -> float -> float.

Definition lin2db (value : ArrayLike) (mode : string) : W pyvalue :=
  value <- lift (asanyarray value) ;;
  _validate_positive value mode "lin2db" ;;;
  let result := np_map (fun y => 10 * y)%float (ufunc log10 value) in
  ret (item_if_0d result).

Definition db2lin (value_db : ArrayLike) : W pyvalue :=
  value_db <- lift (asanyarray value_db) ;;
  let result :=
    np_map (fun y => pow 10 y) (ufunc (fun x => x / 10)%float value_db) in
  ret (item_if_0d result).

Definition watt2dbm (power_watt : ArrayLike) (mode : string) : W pyvalue :=
  value <- lift (asanyarray power_watt) ;;
  _validate_positive value mode "watt2dbm" ;;;
  let result :=
    np_map (fun y => y + 30)%float
      (np_map (fun y => 10 * y)%float (ufunc log10 value)) in
  ret (item_if_0d result).

Definition dbm2watt (power_dbm : ArrayLike) : W pyvalue :=
  value_db <- lift (asanyarray power_dbm) ;;
  let result :=
    np_map (fun y => pow 10 y)
      (np_map (fun y => y / 10)%float
         (ufunc (fun x => x - 30)%float value_db)) in
  ret (item_if_0d result).

Definition watt2db (power_watt : ArrayLike) (mode : string) : W pyvalue :=
  lin2db power_watt mode.

Definition db2watt (value_db : ArrayLike) : W pyvalue :=
  db2lin value_db.

Definition freq_Hz_to_wavelength_m (freq_Hz : ArrayLike) (mode : string)
    : W pyvalue :=
  freq <- lift (asanyarray freq_Hz) ;;
  _validate_positive freq mode "freq_Hz_to_wavelength_m" ;;;
  let result := ufunc (fun x => SPEED_OF_LIGHT / x)%float freq in
  ret (item_if_0d result).

Definition wavelength_m_to_freq_Hz (wavelength_m : ArrayLike) (mode : string)
    : W pyvalue :=
  wl <- lift (asanyarray wavelength_m) ;;
  _validate_positive wl mode "wavelength_m_to_freq_Hz" ;;;
  let result := ufunc (fun x => SPEED_OF_LIGHT / x)%float wl in
  ret (item_if_0d result).

Definition wavelength_nm_to_freq_Hz (wavelength_nm : ArrayLike) (mode : string)
    : W pyvalue :=
  wl_nm <- lift (asanyarray wavelength_nm) ;;
  _validate_positive wl_nm mode "wavelength_nm_to_freq_Hz" ;;;
  let result :=
    np_map (fun y => SPEED_OF_LIGHT / y)%float
      (ufunc (fun x => x * nano)%float wl_nm) in
  ret (item_if_0d result).

Definition freq_Hz_to_wavelength_nm (freq_Hz : ArrayLike) (mode : string)
    : W pyvalue :=
  freq <- lift (asanyarray freq_Hz) ;;
  _validate_positive freq mode "freq_Hz_to_wavelength_nm" ;;;
  let result :=
    np_map (fun y => y * 1e9)%float
      (ufunc (fun x => SPEED_OF_LIGHT / x)%float freq) in
  ret (item_if_0d result).

Definition freq_GHz_to_Hz (freq_GHz : ArrayLike) : W pyvalue :=
  a <- lift (asanyarray freq_GHz) ;;
  ret (Np (ufunc (fun x => x * 1e9)%float a)).

Definition freq_Hz_to_GHz (freq_Hz : ArrayLike) : W pyvalue :=
  a <- lift (asanyarray freq_Hz) ;;
  ret (Np (ufunc (fun x => x / 1e9)%float a)).

(** *** The library as a whole *)

(** The twelve public functions. *)
Inductive converter :=
| Lin2db | Db2lin | Watt2dbm | Dbm2watt | Watt2db | Db2watt
| Freq_Hz_to_wavelength_m | Wavelength_m_to_freq_Hz
| Wavelength_nm_to_freq_Hz | Freq_Hz_to_wavelength_nm
| Freq_GHz_to_Hz | Freq_Hz_to_GHz.

(** The functions that take [mode] and validate their input. *)
Definition takes_mode (f : converter) : bool :=
  match f with
  | Lin2db | Watt2dbm | Watt2db
  | Freq_Hz_to_wavelength_m | Wavelength_m_to_freq_Hz
  | Wavelength_nm_to_freq_Hz | Freq_Hz_to_wavelength_nm => true
  | Db2lin | Dbm2watt | Db2watt | Freq_GHz_to_Hz | Freq_Hz_to_GHz => false
  end.


(** A call [f(value, mode)], or [f(value)] when [f] takes no mode. *)
Definition call (f : converter) (value : ArrayLike) (mode : string)
    : W pyvalue :=
  match f with
  | Lin2db => lin2db value mode
  | Db2lin => db2lin value
  | Watt2dbm => watt2dbm value mode
  | Dbm2watt => dbm2watt value
  | Watt2db => watt2db value mode
  | Db2watt => db2watt value
  | Freq_Hz_to_wavelength_m => freq_Hz_to_wavelength_m value mode
  | Wavelength_m_to_freq_Hz => wavelength_m_to_freq_Hz value mode
  | Wavelength_nm_to_freq_Hz => wavelength_nm_to_freq_Hz value mode
  | Freq_Hz_to_wavelength_nm => freq_Hz_to_wavelength_nm value mode
  | Freq_GHz_to_Hz => freq_GHz_to_Hz value
  | Freq_Hz_to_GHz => freq_Hz_to_GHz value
  end.

End Formulas.

(** *** Shapes of arguments and results *)







(** *** Words for the modes and the elements *)

(** The name a function hands to the validation step; [watt2db] validates
    inside [lin2db], under that name. *)
Definition context_name (f : converter) : string :=
  match f with
  | Lin2db | Watt2db => "lin2db"
  | Watt2dbm => "watt2dbm"
  | Freq_Hz_to_wavelength_m => "freq_Hz_to_wavelength_m"
  | Wavelength_m_to_freq_Hz => "wavelength_m_to_freq_Hz"
  | Wavelength_nm_to_freq_Hz => "wavelength_nm_to_freq_Hz"
  | Freq_Hz_to_wavelength_nm => "freq_Hz_to_wavelength_nm"
  | Db2lin | Dbm2watt | Db2watt | Freq_GHz_to_Hz | Freq_Hz_to_GHz => ""
  end.

(** The argument converts to an array with an element [<= 0]. *)
Definition has_nonpositive (value : ArrayLike) : bool :=
  match asanyarray value with
  | Return a => any_le0 a
  | Raise _ => false
  end.

(** The numbers a result holds, in order. *)
Definition elements_of (v : pyvalue) : list float :=
  match v with
  | PyFloat x | Np (NpFloat64 x) => [x]
  | Np (NdArray a) => data a
  end.

(** A result with [g] applied to each of its numbers. *)
Definition py_map (g : float -> float) (v : pyvalue) : pyvalue :=
  match v with
  | PyFloat x => PyFloat (g x)
  | Np (NpFloat64 x) => Np (NpFloat64 (g x))
  | Np (NdArray (Arr0 x)) => Np (NdArray (Arr0 (g x)))
  | Np (NdArray (ArrN d ds l)) => Np (NdArray (ArrN d ds (map g l)))
  end.

(** An argument with [g] applied to each of its floats. *)
Definition arg_map (g : float -> float) (value : ArrayLike) : ArrayLike :=
  match value with
  | AFloat x => AFloat (g x)
  | AInt n => AInt n
  | AList l => AList (map g l)
  | AArray (Arr0 x) => AArray (Arr0 (g x))
  | AArray (ArrN d ds l) => AArray (ArrN d ds (map g l))
  end.

(** The argument is not a Python [int]. *)
Definition is_int (value : ArrayLike) : bool :=
  match value with AInt _ => true | _ => false end.

(** The messages the validation step passed to [warnings.warn] during a
    computation. *)
Definition validation_warnings {A} (r : W A) : list string := snd r.

(** *** Kinds of result *)




(** *** The top of the range of doubles *)





End Converters.

(** ** Experiment folders *)

Module Folders.

Local Open Scope string_scope.

(** *** [str] methods *)

Definition is_ascii_upper (c : ascii) : bool :=
  let n := nat_of_ascii c in (65 <=? n)%nat && (n <=? 90)%nat.

Definition is_ascii_lower (c : ascii) : bool :=
  let n := nat_of_ascii c in (97 <=? n)%nat && (n <=? 122)%nat.

Definition lower_char (c : ascii) : ascii :=
  if is_ascii_upper c then ascii_of_nat (nat_of_ascii c + 32) else c.

Definition upper_char (c : ascii) : ascii :=
  if is_ascii_lower c then ascii_of_nat (nat_of_ascii c - 32) else c.

(** Every character is an ASCII character. *)
Fixpoint is_ascii (s : string) : bool :=
  match s with
  | EmptyString => true
  | String c r => (nat_of_ascii c <? 128)%nat && is_ascii r
  end.

(** [s.lower()] for ASCII text. *)
Fixpoint ascii_lower (s : string) : string :=
  match s with
  | EmptyString => EmptyString
  | String c r => String (lower_char c) (ascii_lower r)
  end.

(** [s.capitalize()] for ASCII text: the first character in upper case, the
    others in lower case. *)
Definition ascii_capitalize (s : string) : string :=
  match s with
  | EmptyString => EmptyString
  | String c r => String (upper_char c) (ascii_lower r)
  end.

(** [str.lower] and [str.capitalize]. Python maps the case of every Unicode
    letter (['école'.capitalize()] starts with an upper-case E acute,
    the capitalized sharp s is [Ss]); the model fixes the two methods where
    the text is ASCII and leaves them open elsewhere. *)
Class StrMethods := {
  lower : string -> string;
  capitalize : string -> string;
  lower_on_ascii :
    forall s, is_ascii s = true -> lower s = ascii_lower s;
  capitalize_on_ascii :
    forall s, is_ascii s = true -> capitalize s = ascii_capitalize s
}.

(** The instance used to run the methods: it leaves every character that is
    not an ASCII letter as it is. *)
#[global] Instance ascii_case : StrMethods := {
  lower := ascii_lower;
  capitalize := ascii_capitalize;
  lower_on_ascii := fun _ _ => eq_refl;
  capitalize_on_ascii := fun _ _ => eq_refl
}.

(** [s.startswith(p)] and [s.endswith(p)] *)
Fixpoint startswith (s p : string) {struct p} : bool :=
  match p, s with
  | EmptyString, _ => true
  | String _ _, EmptyString => false
  | String b p', String a s' => (a =? b)%char && startswith s' p'
  end.

Fixpoint endswith (s p : string) : bool :=
  (s =? p) ||
  match s with
  | EmptyString => false
  | String _ r => endswith r p
  end.

(** *** [posixpath] *)

Definition sep : string := "/".

(** [os.path.join(a, b)] *)
Definition join (a b : string) : string :=
  if startswith b sep then b
  else if (a =? "") || endswith a sep then a ++ b
  else a ++ sep ++ b.

(** [os.path.isabs(p)] *)
Definition isabs (p : string) : bool := startswith p sep.

Fixpoint has_sep (p : string) : bool :=
  match p with
  | EmptyString => false
  | String c r => (c =? "/")%char || has_sep r
  end.

(** [os.path.basename(p)]: what follows the last separator. *)
Fixpoint basename (p : string) : string :=
  match p with
  | EmptyString => EmptyString
  | String c r =>
      if has_sep r then basename r
      else if (c =? "/")%char then r else p
  end.

(** *** The operating system *)

(** The file-system calls the class makes, as Python's [os], [shutil] and
    [open] perform them. A call that changes the file system either succeeds
    with the new file system ([inr]) or raises ([inl]) an exception, with the
    file system as the failed call left it: an [OSError], or another
    exception ([os.rename] raises [ValueError] for a path with a NUL
    character); [open(p, 'w')] may have created or emptied the file before
    the write fails. *)
Class FileSystem (FS : Type) := {
  (** [os.path.exists(p)] *)
  os_path_exists : string -> FS -> bool;
  (** [os.makedirs(p, exist_ok=False)] *)
  os_makedirs : string -> FS -> (exn * FS) + FS;
  (** [os.rename(src, dst)] *)
  os_rename : string -> string -> FS -> (exn * FS) + FS;
  (** [with open(p, 'w', encoding='utf-8') as f: f.write(content)] *)
  open_write : string -> string -> FS -> (exn * FS) + FS;
  (** [shutil.copyfile(src, dst)] *)
  shutil_copyfile : string -> string -> FS -> (exn * FS) + FS
}.

Inductive syscall :=
| SysExists (p : string)
| SysMakedirs (p : string)
| SysRename (src dst : string)
| SysWrite (p content : string)
| SysCopy (src dst : string).

(** The world a method runs in: the file system, the lines printed so far and
    the file-system calls made so far (both oldest first). *)
Record world (FS : Type) := World {
  fs : FS;
  stdout : list string;
  syscalls : list syscall
}.
Arguments World {FS} fs stdout syscalls.
Arguments fs {FS} w.
Arguments stdout {FS} w.
Arguments syscalls {FS} w.

(** The object state of an [ExperimentFolder]. *)
Record ExperimentFolder := Build_ExperimentFolder {
  timestamp : string;
  folder_name : string;
  path : string;
  _finalized : bool
}.

Declare Scope io_scope.
Delimit Scope io_scope with io.

Section Methods.

Context {FS : Type} {OS : FileSystem FS} {STR : StrMethods}.

(** A method body: it runs in a world and returns or raises. *)
Definition IO (A : Type) : Type := world FS -> outcome A * world FS.

Definition ret {A} (a : A) : IO A := fun w => (Return a, w).
Definition raise {A} (e : exn) : IO A := fun w => (Raise e, w).

Definition bind {A B} (m : IO A) (k : A -> IO B) : IO B :=
  fun w =>
    match m w with
    | (Return a, w') => k a w'
    | (Raise e, w') => (Raise e, w')
    end.

(** [try: body  except OSError as e: handler(e)] *)
Definition try_except_OSError {A} (body : IO A) (handler : exn -> IO A)
    : IO A :=
  fun w =>
    match body w with
    | (Raise e, w') => if is_OSError e then handler e w' else (Raise e, w')
    | r => r
    end.

(** [str(e)] *)
Definition str_exn (e : exn) : string :=
  match e with
  | ValueError m | OverflowError m | OSErr _ m => m
  end.

Definition print (line : string) : IO unit :=
  fun w => (Return tt, World (fs w) (stdout w ++ [line])%list (syscalls w)).

(** A call that changes the file system, recorded in [syscalls]; when it
    raises, the file system is the one the failed call left. *)
Definition sys (c : syscall) (op : FS -> (exn * FS) + FS) : IO unit :=
  fun w =>
    let calls := (syscalls w ++ [c])%list in
    match op (fs w) with
    | inl (e, fs') => (Raise e, World fs' (stdout w) calls)
    | inr fs' => (Return tt, World fs' (stdout w) calls)
    end.

Definition exists_ (p : string) : IO bool :=
  fun w =>
    (Return (os_path_exists p (fs w)),
     World (fs w) (stdout w) (syscalls w ++ [SysExists p])%list).

Definition makedirs (p : string) : IO unit :=
  sys (SysMakedirs p) (os_makedirs p).
Definition rename (src dst : string) : IO unit :=
  sys (SysRename src dst) (os_rename src dst).
Definition write_text (p content : string) : IO unit :=
  sys (SysWrite p content) (open_write p content).
Definition copyfile (src dst : string) : IO unit :=
  sys (SysCopy src dst) (shutil_copyfile src dst).

Notation "x <- m ;; k" := (bind m (fun x => k))
  (at level 61, m at next level, right associativity) : io_scope.
Notation "m ;;; k" := (bind m (fun _ => k))
  (at level 61, right associativity) : io_scope.
Local Open Scope io_scope.

(** *** The class [ExperimentFolder] *)

(** [ExperimentFolder(base_path, tag, version)]. [now] is the string
    [datetime.now().strftime('%Y-%m-%d_%H-%M-%S')] read from the clock; the
    defaults are [tag = "sim"] and [version = ""]. *)
Definition init (base_path tag version now : string) : IO ExperimentFolder :=
  let folder_name_parts :=
    ([now] ++ (if version =? "" then [] else [version]) ++ [tag])%list in
  let folder_name := String.concat "_" folder_name_parts in
  let path := join base_path folder_name in
  makedirs path ;;;
  ret (Build_ExperimentFolder now folder_name path false).

Definition get_folder_name (self : ExperimentFolder) : string :=
  folder_name self.

(** [get_path(filename)]; the default is [filename = ""]. *)
Definition get_path (self : ExperimentFolder) (filename : string) : string :=
  join (path self) filename.

(** [copy_file(src_path, new_name)]; [None] is the default of [new_name]. *)
Definition copy_file (self : ExperimentFolder) (src_path : string)
    (new_name : option string) : IO unit :=
  found <- exists_ src_path ;;
  if negb found then
    raise (OSErr EFileNotFound
             ("Arquivo fonte não encontrado: " ++ src_path))
  else
    let filename :=
      match new_name with
      | Some n => if n =? "" then basename src_path else n
      | None => basename src_path
      end in
    let dst_path := get_path self filename in
    copyfile src_path dst_path.

Definition save_text (self : ExperimentFolder) (filename content : string)
    : IO unit :=
  write_text (get_path self filename) content.

(** [finish(status, info_msg)]; the defaults are [status = "success"] and
    [info_msg = ""]. The method assigns to [self] only after the last call
    that can raise, so the object it leaves is returned with the outcome:
    when it raises, [self] is as it was. *)
Definition finish (self : ExperimentFolder) (status info_msg : string)
    : IO ExperimentFolder :=
  if _finalized self then ret self
  else
    let suffix := "_" ++ capitalize status in
    let new_path := path self ++ suffix in
    (if info_msg =? "" then ret tt
     else
       let log_name :=
         if lower status =? "success" then "Success.txt" else "Error.txt" in
       save_text self log_name info_msg) ;;;
    try_except_OSError
      (rename (path self) new_path ;;;
       ret (Build_ExperimentFolder
              (timestamp self) (folder_name self) new_path true))
      (fun e =>
         print ("Erro ao renomear pasta de experimento: " ++ str_exn e) ;;;
         ret self).

(** [str(self)] *)
Definition to_str (self : ExperimentFolder) : string :=
  "ExperimentFolder(" ++ path self ++ ")".

(** *** Steps of [finish] *)

(** The path [finish] renames the folder to. *)
Definition new_path (self : ExperimentFolder) (status : string) : string :=
  path self ++ "_" ++ capitalize status.

(** The name of the status file. *)
Definition log_name (status : string) : string :=
  if lower status =? "success" then "Success.txt" else "Error.txt".

(** What [finish] does on a folder that is not finalized before it renames:
    it writes the status file when [info_msg] is not empty. *)
Definition log_step (self : ExperimentFolder) (status info_msg : string)
    : IO unit :=
  if info_msg =? "" then ret tt
  else save_text self (log_name status) info_msg.

(** Calls of [finish] one after the other, each with its status and
    message. *)
Fixpoint finish_all (self : ExperimentFolder) (calls : list (string * string))
    : IO ExperimentFolder :=
  match calls with
  | nil => ret self
  | (status, info_msg) :: rest =>
      self' <- finish self status info_msg ;;
      finish_all self' rest
  end.

End Methods.

Notation "x <- m ;; k" := (bind m (fun x => k))
  (at level 61, m at next level, right associativity) : io_scope.
Notation "m ;;; k" := (bind m (fun _ => k))
  (at level 61, right associativity) : io_scope.

(** *** Words of the specification *)

(** A status label with its first character in upper case and the others as
    given. *)
Definition first_upper (s : string) : string :=
  match s with
  | EmptyString => EmptyString
  | String c r => String (upper_char c) r
  end.

(** No character is an upper-case letter. *)
Fixpoint no_upper (s : string) : bool :=
  match s with
  | EmptyString => true
  | String c r => negb (is_ascii_upper c) && no_upper r
  end.

(** A directory path closed by one separator, unless it is empty or has one
    already. *)
Definition with_sep (p : string) : string :=
  if (p =? "") || endswith p sep then p else p ++ sep.

(** *** An in-memory file system

    One instance of [FileSystem], used to run the methods: every directory,
    by its path, with the regular files it holds (name and text). *)
Module MemFS.

Definition dir := list (string * string).
Definition t := list (string * dir).

Fixpoint lookup {V} (k : string) (l : list (string * V)) : option V :=
  match l with
  | nil => None
  | (k', v) :: r => if k' =? k then Some v else lookup k r
  end.

Fixpoint remove {V} (k : string) (l : list (string * V))
    : list (string * V) :=
  match l with
  | nil => nil
  | (k', v) :: r => if k' =? k then remove k r else (k', v) :: remove k r
  end.

Definition update {V} (k : string) (v : V) (l : list (string * V))
    : list (string * V) :=
  (k, v) :: remove k l.

(** The directory part of a path: what precedes its last separator. *)
Fixpoint dirname (p : string) : string :=
  match p with
  | EmptyString => EmptyString
  | String c r => if has_sep r then String c (dirname r) else EmptyString
  end.

Definition read (p : string) (m : t) : option string :=
  match lookup (dirname p) m with
  | Some files => lookup (basename p) files
  | None => None
  end.

Definition enoent (p : string) : exn :=
  OSErr EFileNotFound ("[Errno 2] No such file or directory: '" ++ p ++ "'").

(** A path with a NUL character: the [os] functions raise [ValueError]
    before any system call, and [os.path.exists] answers [False]. *)
Fixpoint has_nul (p : string) : bool :=
  match p with
  | EmptyString => false
  | String c r => (c =? "000")%char || has_nul r
  end.

Definition embedded_null : exn := ValueError "embedded null byte".

Definition exists_ (p : string) (m : t) : bool :=
  if has_nul p then false
  else
    match lookup p m, read p m with
    | None, None => false
    | _, _ => true
    end.

Definition makedirs (p : string) (m : t) : (exn * t) + t :=
  if has_nul p then inl (embedded_null, m)
  else if exists_ p m
  then inl (OSErr EFileExists ("[Errno 17] File exists: '" ++ p ++ "'"), m)
  else inr (update p nil m).

Definition rename (src dst : string) (m : t) : (exn * t) + t :=
  if has_nul src || has_nul dst then inl (embedded_null, m)
  else
    match lookup src m with
    | None => inl (enoent (src ++ "' -> '" ++ dst), m)
    | Some files =>
        if src =? dst then inr m
        else
          match lookup dst m, lookup (dirname dst) m with
          | Some (_ :: _), _ =>
              inl (OSErr ENotEmpty
                     ("[Errno 39] Directory not empty: '" ++ src
                      ++ "' -> '" ++ dst ++ "'"), m)
          | _, None =>
              if dirname dst =? "" then inr (update dst files (remove src m))
              else inl (enoent (src ++ "' -> '" ++ dst), m)
          | _, Some _ => inr (update dst files (remove src m))
          end
    end.

Definition write (p content : string) (m : t) : (exn * t) + t :=
  if has_nul p then inl (embedded_null, m)
  else
    match lookup p m with
    | Some _ =>
        inl (OSErr EIsADirectory ("[Errno 21] Is a directory: '" ++ p ++ "'"),
             m)
    | None =>
        match lookup (dirname p) m with
        | None => inl (enoent p, m)
        | Some files =>
            inr (update (dirname p) (update (basename p) content files) m)
        end
    end.

Definition copyfile (src dst : string) (m : t) : (exn * t) + t :=
  if has_nul src then inl (embedded_null, m)
  else
    match lookup src m with
    | Some _ =>
        inl (OSErr EIsADirectory
               ("[Errno 21] Is a directory: '" ++ src ++ "'"), m)
    | None =>
        match read src m with
        | None => inl (enoent src, m)
        | Some content =>
            if src =? dst
            then inl (OSErr ESameFile
                        ("'" ++ src ++ "' and '" ++ dst
                         ++ "' are the same file"), m)
            else write dst content m
        end
    end.

#[global] Instance memfs : FileSystem t := {
  os_path_exists := exists_;
  os_makedirs := makedirs;
  os_rename := rename;
  open_write := write;
  shutil_copyfile := copyfile
}.

(** A fresh process: nothing printed, no call made. *)
Definition boot (m : t) : world t := World m nil nil.

End MemFS.

(** *** A sample run on the in-memory file system *)

(** Before the constructor: only the base directory. *)
Definition sample_world : world MemFS.t :=
  MemFS.boot [("results", nil)].

(** The folder [ExperimentFolder("results")] built at 14:30:00 on
    27 October 2023. *)
Definition sample_folder : ExperimentFolder :=
  Build_ExperimentFolder "2023-10-27_14-30-00" "2023-10-27_14-30-00_sim"
    "results/2023-10-27_14-30-00_sim" false.

(** After the constructor, in a fresh process. *)
Definition sample_created : world MemFS.t :=
  MemFS.boot [("results/2023-10-27_14-30-00_sim", nil); ("results", nil)].

(** After the status file [Error.txt] was written with the text [boom]. *)
Definition sample_logged : world MemFS.t :=
  World
    [("results/2023-10-27_14-30-00_sim", [("Error.txt", "boom")]);
     ("results", nil)]
    nil
    [SysWrite "results/2023-10-27_14-30-00_sim/Error.txt" "boom"].

(** The file system after the folder was renamed with the suffix [_Fail]. *)
Definition sample_renamed : MemFS.t :=
  [("results/2023-10-27_14-30-00_sim_Fail", [("Error.txt", "boom")]);
   ("results", nil)].

(** The folder stands beside a directory that already has the name
    [..._sim_Fail] and holds a file: the rename will fail. *)
Definition sample_blocked : world MemFS.t :=
  MemFS.boot
    [("results/2023-10-27_14-30-00_sim", nil);
     ("results/2023-10-27_14-30-00_sim_Fail", [("old.txt", "kept")]);
     ("results", nil)].

(** A status with a NUL character after its first letter. *)
Definition nul_status : string :=
  String "a" (String "000" (String "b" EmptyString)).

(** A file to copy into the folder. *)
Definition sample_with_source : world MemFS.t :=
  MemFS.boot
    [("results/2023-10-27_14-30-00_sim", nil);
     ("data", [("config.yaml", "seed: 1")]);
     ("results", nil)].

End Folders.

(** * Properties of the unit converters *)

Module ConverterFacts.

Import Converters.
Local Open Scope conv_scope.

Section Facts.

Variable log10 : float -> float.
Variable pow : float -> float -> float.

(** The validation step lets a NaN through in every mode: [nan <= 0] is
    false. *)
Lemma validate_nan mode context :
  _validate_positive (Arr0 nan) mode context = (Return tt, []).
Proof.
  unfold _validate_positive.
  destruct (mode =? "ignore")%string; reflexivity.
Qed.

(** C1 (what the code does at the failing input): under mode ["raise"] each
    of the seven validating functions, given a NaN, raises nothing and
    returns the value of its formula at NaN, with no warning. *)
Theorem nan_is_not_rejected_under_raise :
  lin2db log10 (AFloat nan) "raise"
    = (Return (PyFloat (10 * log10 nan)), []) /\
  watt2dbm log10 (AFloat nan) "raise"
    = (Return (PyFloat (10 * log10 nan + 30)), []) /\
  watt2db log10 (AFloat nan) "raise"
    = (Return (PyFloat (10 * log10 nan)), []) /\
  freq_Hz_to_wavelength_m (AFloat nan) "raise"
    = (Return (PyFloat (SPEED_OF_LIGHT / nan)), []) /\
  wavelength_m_to_freq_Hz (AFloat nan) "raise"
    = (Return (PyFloat (SPEED_OF_LIGHT / nan)), []) /\
  wavelength_nm_to_freq_Hz (AFloat nan) "raise"
    = (Return (PyFloat (SPEED_OF_LIGHT / (nan * nano))), []) /\
  freq_Hz_to_wavelength_nm (AFloat nan) "raise"
    = (Return (PyFloat (SPEED_OF_LIGHT / nan * 1e9)), []) /\
  (forall f, takes_mode f = true ->
     exists v, call log10 pow f (AFloat nan) "raise" = (Return v, [])).
Proof.
  repeat split; try reflexivity.
  intros f Hf; destruct f; try discriminate Hf; eexists; reflexivity.
Qed.

(** C8: [watt2db] is [lin2db] and [db2watt] is [db2lin]: on every argument
    and every mode string the two calls have the same outcome (the value
    returned or the exception raised, message included) and the same
    warnings. *)
Theorem watt2db_is_lin2db (value : ArrayLike) (mode : string) :
  watt2db log10 value mode = lin2db log10 value mode /\
  db2watt pow value = db2lin pow value.
Proof. split; reflexivity. Qed.



(** Two elementwise operations in a row are one. *)
Lemma np_map_ufunc g h a :
  np_map g (ufunc h a) = ufunc (fun x => g (h x)) a.
Proof. destruct a; simpl; [reflexivity | now rewrite map_map]. Qed.

(** When [asanyarray] raises, the argument is an [int] out of range. *)
Lemma asanyarray_raises value e :
  asanyarray value = Raise e ->
  exists n, value = AInt n /\ int_to_float n = Raise e.
Proof.
  destruct value as [x|n|l|b]; simpl; try discriminate.
  destruct (int_to_float n) eqn:E; [discriminate|].
  intros [= <-]; now exists n.
Qed.





End Facts.


End ConverterFacts.

(** * Properties of the experiment folders *)

Module FolderFacts.

Import Folders.
Local Open Scope string_scope.
Local Open Scope io_scope.

(** ** Strings and paths *)

Lemma append_assoc (a b c : string) : (a ++ b) ++ c = a ++ (b ++ c).
Proof. induction a as [|x a IH]; simpl; [reflexivity | now rewrite IH]. Qed.

Lemma lower_char_fixed c : is_ascii_upper c = false -> lower_char c = c.
Proof. unfold lower_char; now intros ->. Qed.

Lemma lower_char_moves c : is_ascii_upper c = true -> lower_char c <> c.
Proof.
  unfold lower_char, is_ascii_upper. intros Hc. rewrite Hc.
  apply andb_prop in Hc as [Hlo Hhi].
  apply Nat.leb_le in Hlo, Hhi.
  intros E. apply (f_equal nat_of_ascii) in E.
  rewrite nat_ascii_embedding in E; lia.
Qed.

Lemma lower_fixed_iff s : ascii_lower s = s <-> no_upper s = true.
Proof.
  induction s as [|c r IH]; simpl; [tauto|].
  destruct (is_ascii_upper c) eqn:Hc; simpl.
  - split; [|discriminate].
    intros E. injection E as E1 E2.
    exfalso. exact (lower_char_moves c Hc E1).
  - rewrite (lower_char_fixed c Hc), <- IH.
    split; [intros E; now injection E | now intros ->].
Qed.




Lemma join_relative a b :
  isabs b = false -> join a b = with_sep a ++ b.
Proof.
  unfold isabs, join, with_sep. intros ->.
  destruct ((a =? "") || endswith a sep); [reflexivity|].
  now rewrite append_assoc.
Qed.


(** ** The methods, on any file system *)

Section OnAnyFileSystem.

Context {FS : Type} {OS : FileSystem FS} {STR : StrMethods}.

(** [finish] on a folder that is not finalized: the status-file step, then
    the rename; an [OSError] of the rename is printed, any other exception
    propagates. *)
Lemma finish_not_finalized e s m w :
  _finalized e = false ->
  finish e s m w =
    match log_step e s m w with
    | (Raise ex, w1) => (Raise ex, w1)
    | (Return _, w1) =>
        let calls :=
          (syscalls w1 ++ [SysRename (path e) (new_path e s)])%list in
        match os_rename (path e) (new_path e s) (fs w1) with
        | inr fs2 =>
            (Return (Build_ExperimentFolder
                       (timestamp e) (folder_name e) (new_path e s) true),
             World fs2 (stdout w1) calls)
        | inl (ex, fs2) =>
            if is_OSError ex then
              (Return e,
               World fs2
                 (stdout w1
                  ++ [("Erro ao renomear pasta de experimento: "
                       ++ str_exn ex)%string])%list
                 calls)
            else (Raise ex, World fs2 (stdout w1) calls)
        end
    end.
Proof.
  intros Hfin. unfold finish. rewrite Hfin.
  unfold bind at 1. fold (new_path e s).
  change (if m =? "" then ret tt
          else save_text e
                 (if lower s =? "success" then "Success.txt" else "Error.txt")
                 m)
    with (log_step e s m).
  destruct (log_step e s m w) as [[u|ex] w1]; [|reflexivity].
  unfold try_except_OSError, bind, rename, sys, ret, print.
  destruct (os_rename (path e) (new_path e s) (fs w1)) as [[ex fs2]|fs2];
    [|reflexivity].
  cbn [fs stdout syscalls]. now destruct (is_OSError ex).
Qed.

(** [finish] on a finalized folder does nothing. *)
Lemma finish_finalized e s m w :
  _finalized e = true -> finish e s m w = (Return e, w).
Proof. intros Hfin. unfold finish. now rewrite Hfin. Qed.

Lemma finish_rename_ok e s m w w1 fs2 :
  _finalized e = false ->
  log_step e s m w = (Return tt, w1) ->
  os_rename (path e) (new_path e s) (fs w1) = inr fs2 ->
  finish e s m w =
    (Return (Build_ExperimentFolder
               (timestamp e) (folder_name e) (new_path e s) true),
     World fs2 (stdout w1)
       (syscalls w1 ++ [SysRename (path e) (new_path e s)])%list).
Proof.
  intros Hfin Hlog Hmv.
  now rewrite (finish_not_finalized e s m w Hfin), Hlog, Hmv.
Qed.

Lemma finish_rename_fails e s m w w1 ex fs2 :
  _finalized e = false ->
  log_step e s m w = (Return tt, w1) ->
  os_rename (path e) (new_path e s) (fs w1) = inl (ex, fs2) ->
  is_OSError ex = true ->
  finish e s m w =
    (Return e,
     World fs2
       (stdout w1
        ++ [("Erro ao renomear pasta de experimento: "
             ++ str_exn ex)%string])%list
       (syscalls w1 ++ [SysRename (path e) (new_path e s)])%list).
Proof.
  intros Hfin Hlog Hmv Hos.
  now rewrite (finish_not_finalized e s m w Hfin), Hlog, Hmv, Hos.
Qed.

Lemma finish_rename_raises e s m w w1 ex fs2 :
  _finalized e = false ->
  log_step e s m w = (Return tt, w1) ->
  os_rename (path e) (new_path e s) (fs w1) = inl (ex, fs2) ->
  is_OSError ex = false ->
  finish e s m w =
    (Raise ex,
     World fs2 (stdout w1)
       (syscalls w1 ++ [SysRename (path e) (new_path e s)])%list).
Proof.
  intros Hfin Hlog Hmv Hos.
  now rewrite (finish_not_finalized e s m w Hfin), Hlog, Hmv, Hos.
Qed.

(** The status-file step: nothing for an empty message, otherwise one write
    to the status file, whose result it takes over. *)
Lemma log_step_eq e s m w :
  log_step e s m w =
    if m =? "" then (Return tt, w)
    else
      let p := join (path e) (log_name s) in
      let calls := (syscalls w ++ [SysWrite p m])%list in
      match open_write p m (fs w) with
      | inr fs1 => (Return tt, World fs1 (stdout w) calls)
      | inl (ex, fs1) => (Raise ex, World fs1 (stdout w) calls)
      end.
Proof.
  unfold log_step. destruct (m =? ""); [reflexivity|].
  unfold save_text, write_text, sys, get_path. cbv zeta.
  destruct (open_write _ _ _) as [[ex fs1]|fs1]; reflexivity.
Qed.


(** A finalized folder stays as it is under any further calls. *)
Lemma finish_all_finalized calls : forall e w,
  _finalized e = true -> finish_all e calls w = (Return e, w).
Proof.
  induction calls as [|[s m] rest IH]; intros e w Hfin; simpl.
  - reflexivity.
  - unfold bind. rewrite (finish_finalized e s m w Hfin). now apply IH.
Qed.

(** What the constructor builds when it returns. *)
Lemma init_returns base tag version now w e w1 :
  init base tag version now w = (Return e, w1) ->
  e = Build_ExperimentFolder now
        (String.concat "_"
           ([now] ++ (if version =? "" then [] else [version]) ++ [tag])%list)
        (join base
           (String.concat "_"
              ([now] ++ (if version =? "" then [] else [version]) ++ [tag])%list))
        false.
Proof.
  unfold init, bind, makedirs, sys, ret.
  destruct (os_makedirs _ _) as [[ex fs1]|fs1]; [discriminate|].
  now intros [= <- _].
Qed.

(** C2 (amended): for a status of ASCII characters, [finish] on a folder
    that is not finalized, when the status-file step returns and the rename
    succeeds, renames the folder to its path followed by an underscore and
    the capitalized status, that is the status with its first character in
    upper case and all the others in lower case; this is the status with only
    the first character changed exactly when the others hold no upper-case
    letter. *)
Theorem finish_appends_capitalized_status e s m w w1 fs2 :
  is_ascii s = true ->
  _finalized e = false ->
  log_step e s m w = (Return tt, w1) ->
  os_rename (path e) (path e ++ "_" ++ capitalize s) (fs w1) = inr fs2 ->
  finish e s m w =
    (Return (Build_ExperimentFolder (timestamp e) (folder_name e)
               (path e ++ "_" ++ capitalize s) true),
     World fs2 (stdout w1)
       (syscalls w1
        ++ [SysRename (path e) (path e ++ "_" ++ capitalize s)])%list) /\
  (s = "" -> capitalize s = "") /\
  (forall c r, s = String c r ->
     capitalize s = String (upper_char c) (ascii_lower r) /\
     (capitalize s = first_upper s <-> no_upper r = true)).
Proof.
  intros Hascii Hfin Hlog Hmv. split; [|split].
  - exact (finish_rename_ok e s m w w1 fs2 Hfin Hlog Hmv).
  - intros ->. now rewrite capitalize_on_ascii.
  - rewrite (capitalize_on_ascii s Hascii).
    intros c r ->. split; [reflexivity|]. simpl.
    rewrite <- lower_fixed_iff.
    split; [intros E; now injection E | now intros ->].
Qed.



(** C4: once a call of [finish] has renamed the directory, the folder is
    finalized and any further calls of [finish], whatever their status and
    message, return with the object, the file system, the output and the
    calls made exactly as the first call left them. *)
Theorem finish_happens_at_most_once e s m w w1 fs2 calls :
  _finalized e = false ->
  log_step e s m w = (Return tt, w1) ->
  os_rename (path e) (new_path e s) (fs w1) = inr fs2 ->
  exists e1 wf,
    finish e s m w = (Return e1, wf) /\
    _finalized e1 = true /\
    path e1 = new_path e s /\
    fs wf = fs2 /\
    (forall s' m', finish e1 s' m' wf = (Return e1, wf)) /\
    finish_all e1 calls wf = (Return e1, wf).
Proof.
  intros Hfin Hlog Hmv.
  eexists; eexists. split.
  - exact (finish_rename_ok e s m w w1 fs2 Hfin Hlog Hmv).
  - do 3 (split; [reflexivity|]). split.
    + intros s' m'. now apply finish_finalized.
    + now apply finish_all_finalized.
Qed.

(** C5 (amended): when the rename inside [finish] raises an [OSError],
    [finish] returns without raising; it has printed one line with the error,
    and the object is as before: same path, not finalized. When the rename
    raises an exception that is not an [OSError], [finish] raises it and has
    printed nothing. In both cases the file system is as the rename left
    it. *)
Theorem finish_swallows_rename_failure e s m w w1 ex fs2 :
  _finalized e = false ->
  log_step e s m w = (Return tt, w1) ->
  os_rename (path e) (new_path e s) (fs w1) = inl (ex, fs2) ->
  (is_OSError ex = true ->
   exists e1 wf,
     finish e s m w = (Return e1, wf) /\
     e1 = e /\ path e1 = path e /\ _finalized e1 = false /\
     fs wf = fs2 /\
     stdout wf =
       (stdout w1
        ++ [("Erro ao renomear pasta de experimento: "
             ++ str_exn ex)%string])%list) /\
  (is_OSError ex = false ->
   exists wf,
     finish e s m w = (Raise ex, wf) /\
     fs wf = fs2 /\ stdout wf = stdout w1).
Proof.
  intros Hfin Hlog Hmv. split; intros Hos.
  - exists e; eexists. split.
    + exact (finish_rename_fails e s m w w1 ex fs2 Hfin Hlog Hmv Hos).
    + now repeat split.
  - eexists. split.
    + exact (finish_rename_raises e s m w w1 ex fs2 Hfin Hlog Hmv Hos).
    + now split.
Qed.

(** C9: [copy_file] with [new_name = ""] does what it does with [new_name]
    omitted: when the source exists, both copy it to the folder path joined
    with the base name of the source path, and when it does not, both raise
    [FileNotFoundError]. *)
Theorem copy_file_empty_name_is_default e src w :
  copy_file e src (Some "") w = copy_file e src None w /\
  (os_path_exists src (fs w) = true ->
   copy_file e src (Some "") w =
     copyfile src (join (path e) (basename src))
       (World (fs w) (stdout w) (syscalls w ++ [SysExists src])%list)) /\
  (os_path_exists src (fs w) = false ->
   fst (copy_file e src (Some "") w) =
     Raise (OSErr EFileNotFound ("Arquivo fonte não encontrado: " ++ src))).
Proof.
  split; [reflexivity|].
  unfold copy_file, bind, exists_.
  split; intros Hsrc; rewrite Hsrc; reflexivity.
Qed.


End OnAnyFileSystem.

(** ** The in-memory file system *)

Lemma lookup_remove_eq {V} k (l : list (string * V)) :
  MemFS.lookup k (MemFS.remove k l) = None.
Proof.
  induction l as [|[k' v] l IH]; simpl; [reflexivity|].
  destruct (k' =? k) eqn:E; [exact IH|]. simpl. now rewrite E.
Qed.

Lemma lookup_remove_ne {V} k k' (l : list (string * V)) :
  k <> k' -> MemFS.lookup k' (MemFS.remove k l) = MemFS.lookup k' l.
Proof.
  intros Hne. induction l as [|[k0 v] l IH]; simpl; [reflexivity|].
  destruct (k0 =? k) eqn:E.
  - apply String.eqb_eq in E. subst k0.
    apply String.eqb_neq in Hne. now rewrite Hne.
  - simpl. now rewrite IH.
Qed.

(** A rename that succeeds moves the directory: its files are found under
    the new path and nothing is left under the old one. *)
Lemma memfs_rename_moves src dst m m' :
  MemFS.rename src dst m = inr m' ->
  src <> dst ->
  MemFS.lookup dst m' = MemFS.lookup src m /\ MemFS.lookup src m' = None.
Proof.
  unfold MemFS.rename. intros Hmv Hne.
  destruct (MemFS.has_nul src || MemFS.has_nul dst); [discriminate|].
  destruct (MemFS.lookup src m) as [files|]; [|discriminate].
  pose proof Hne as Hne'. apply String.eqb_neq in Hne'. rewrite Hne' in Hmv.
  assert (Hmoved : forall m0, m0 = MemFS.update dst files (MemFS.remove src m) ->
            MemFS.lookup dst m0 = Some files /\ MemFS.lookup src m0 = None).
  { intros m0 ->. unfold MemFS.update. simpl. rewrite String.eqb_refl.
    split; [reflexivity|].
    rewrite String.eqb_sym, Hne'.
    rewrite lookup_remove_ne by congruence. apply lookup_remove_eq. }
  destruct (MemFS.lookup dst m) as [[|f fs]|];
    destruct (MemFS.lookup (MemFS.dirname dst) m);
    try destruct (MemFS.dirname dst =? "");
    try discriminate; injection Hmv as <-; now apply Hmoved.
Qed.

(** ** The sample run *)

(** C2 (counterexample): finishing the sample folder with status [FAIL]
    renames it with the suffix [_Fail], not with the status kept as given
    after its first character. *)
Lemma finish_FAIL_lowers_the_rest :
  exists e1 wf,
    finish sample_folder "FAIL" "" sample_created = (Return e1, wf) /\
    path e1 = "results/2023-10-27_14-30-00_sim_Fail" /\
    path e1 <> path sample_folder ++ "_" ++ first_upper "FAIL".
Proof.
  exists (Build_ExperimentFolder "2023-10-27_14-30-00"
            "2023-10-27_14-30-00_sim"
            "results/2023-10-27_14-30-00_sim_Fail" true).
  exists (World
            [("results/2023-10-27_14-30-00_sim_Fail", []); ("results", [])]
            []
            [SysRename "results/2023-10-27_14-30-00_sim"
               "results/2023-10-27_14-30-00_sim_Fail"]).
  split; [reflexivity|]. split; [reflexivity|].
  cbn. intros E. discriminate E.
Qed.

Lemma finish_appends_capitalized_status_witness :
  finish sample_folder "fail" "boom" sample_created =
    (Return (Build_ExperimentFolder "2023-10-27_14-30-00"
               "2023-10-27_14-30-00_sim"
               "results/2023-10-27_14-30-00_sim_Fail" true),
     World sample_renamed []
       [SysWrite "results/2023-10-27_14-30-00_sim/Error.txt" "boom";
        SysRename "results/2023-10-27_14-30-00_sim"
          "results/2023-10-27_14-30-00_sim_Fail"]).
Proof.
  exact (proj1 (finish_appends_capitalized_status (OS := MemFS.memfs) (STR := ascii_case)
                  sample_folder "fail" "boom" sample_created sample_logged
                  sample_renamed eq_refl eq_refl eq_refl eq_refl)).
Defined.



Lemma finish_happens_at_most_once_witness :
  exists e1 wf,
    finish sample_folder "fail" "boom" sample_created = (Return e1, wf) /\
    _finalized e1 = true /\
    path e1 = "results/2023-10-27_14-30-00_sim_Fail" /\
    fs wf = sample_renamed /\
    (forall s' m', finish e1 s' m' wf = (Return e1, wf)) /\
    finish_all e1 [("success", "done"); ("fail", "")] wf = (Return e1, wf).
Proof.
  apply (finish_happens_at_most_once (OS := MemFS.memfs) (STR := ascii_case)
           sample_folder "fail" "boom" sample_created sample_logged
           sample_renamed [("success", "done"); ("fail", "")]);
    reflexivity.
Defined.

(** C5 (counterexample): with a status that holds a NUL character the rename
    fails with [ValueError], which [except OSError] does not catch: [finish]
    raises, and prints nothing. *)
Lemma finish_raises_for_nul_status :
  finish sample_folder nul_status "" sample_created =
    (Raise (ValueError "embedded null byte"),
     World (fs sample_created) []
       [SysRename "results/2023-10-27_14-30-00_sim"
          ("results/2023-10-27_14-30-00_sim_A"
           ++ String "000" (String "b" EmptyString))]).
Proof. reflexivity. Qed.

Lemma finish_swallows_rename_failure_witness :
  exists e1 wf,
    finish sample_folder "fail" "" sample_blocked = (Return e1, wf) /\
    e1 = sample_folder /\
    path e1 = "results/2023-10-27_14-30-00_sim" /\
    _finalized e1 = false /\
    fs wf = fs sample_blocked /\
    stdout wf =
      ["Erro ao renomear pasta de experimento: [Errno 39] Directory not empty: 'results/2023-10-27_14-30-00_sim' -> 'results/2023-10-27_14-30-00_sim_Fail'"].
Proof.
  exact (proj1
           (finish_swallows_rename_failure (OS := MemFS.memfs)
              (STR := ascii_case)
              sample_folder "fail" "" sample_blocked sample_blocked
              (OSErr ENotEmpty
                 "[Errno 39] Directory not empty: 'results/2023-10-27_14-30-00_sim' -> 'results/2023-10-27_14-30-00_sim_Fail'")
              (fs sample_blocked) eq_refl eq_refl eq_refl)
           eq_refl).
Defined.

Lemma copy_file_empty_name_is_default_witness :
  copy_file sample_folder "data/config.yaml" (Some "") sample_with_source
    = copyfile "data/config.yaml"
        "results/2023-10-27_14-30-00_sim/config.yaml"
        (World (fs sample_with_source) []
           [SysExists "data/config.yaml"]).
Proof.
  apply (copy_file_empty_name_is_default (OS := MemFS.memfs)
           sample_folder "data/config.yaml" sample_with_source).
  reflexivity.
Defined.


End FolderFacts.

(** * Further properties of the unit converters *)

Module ConverterMore.

Import Converters.
Import ConverterFacts.
Local Open Scope conv_scope.

(** ** The comparison [x <= 0] on doubles *)

Lemma SFcompare_refl_finite s m e :
  SFcompare (S754_finite s m e) (S754_finite s m e) = Some Eq.
Proof.
  simpl. rewrite Z.compare_refl.
  assert (Hm : Pos.compare_cont Eq m m = Eq) by apply Pos.compare_cont_refl.
  rewrite Hm. now destruct s.
Qed.

(** [x <= 0] is false exactly for the strictly positive doubles and for
    NaN. *)
Lemma leb_zero_false_iff (x : float) :
  PrimFloat.leb x 0 = false <->
  PrimFloat.ltb 0 x = true \/ PrimFloat.is_nan x = true.
Proof.
  unfold PrimFloat.is_nan.
  rewrite leb_spec, ltb_spec, eqb_spec.
  change (Prim2SF 0) with (S754_zero false).
  unfold SFleb, SFltb, SFeqb.
  destruct (Prim2SF x) as [s|s| |s m e].
  - simpl. split; [discriminate | intros [E|E]; discriminate E].
  - destruct s; simpl.
    + split; [discriminate | intros [E|E]; discriminate E].
    + split; [now left | reflexivity].
  - simpl. split; [now right | reflexivity].
  - rewrite SFcompare_refl_finite. destruct s; simpl.
    + split; [discriminate | intros [E|E]; discriminate E].
    + split; [now left | reflexivity].
Qed.

Lemma any_le0_false_iff a :
  any_le0 a = false <->
  Forall (fun x => PrimFloat.ltb 0 x = true \/ PrimFloat.is_nan x = true)
    (data a).
Proof.
  unfold any_le0. induction (data a) as [|x l IH]; simpl.
  - split; [constructor | reflexivity].
  - rewrite orb_false_iff, IH, leb_zero_false_iff.
    split; [intros [Hx Hl]; now constructor | intros Hf; now inversion Hf].
Qed.

(** ** The validation step, mode by mode *)

Lemma validate_ignore a context :
  _validate_positive a "ignore" context = (Return tt, []).
Proof. reflexivity. Qed.

Lemma validate_raise a context :
  _validate_positive a "raise" context =
    if any_le0 a then (Raise (ValueError (invalid_msg context)), [])
    else (Return tt, []).
Proof.
  unfold _validate_positive.
  change ("raise" =? "ignore")%string with false.
  change ("raise" =? "raise")%string with true.
  now destruct (any_le0 a).
Qed.

Lemma validate_warn a context :
  _validate_positive a "warn" context =
    (Return tt, if any_le0 a then [invalid_msg context] else []).
Proof.
  unfold _validate_positive.
  change ("warn" =? "ignore")%string with false.
  change ("warn" =? "raise")%string with false.
  change ("warn" =? "warn")%string with true.
  now destruct (any_le0 a).
Qed.

Lemma validate_other a mode context :
  mode <> "raise" -> mode <> "warn" ->
  _validate_positive a mode context = (Return tt, []).
Proof.
  intros Hr Hw. unfold _validate_positive.
  apply String.eqb_neq in Hr, Hw. rewrite Hr, Hw.
  destruct (mode =? "ignore")%string; [reflexivity|].
  now destruct (any_le0 a).
Qed.


Ltac unfold_converters :=
  unfold watt2db, db2watt, lin2db, db2lin, watt2dbm, dbm2watt,
    freq_Hz_to_wavelength_m, wavelength_m_to_freq_Hz,
    wavelength_nm_to_freq_Hz, freq_Hz_to_wavelength_nm,
    freq_GHz_to_Hz, freq_Hz_to_GHz.

Section More.

Variable log10 : float -> float.
Variable pow : float -> float -> float.

(** X1: under mode ["raise"] the validation step lets an array through
    exactly when each element is strictly positive or NaN, and raises
    [ValueError] with the message of its caller otherwise. *)
Theorem validation_accepts_positive_or_nan (a : ndarray) (context : string) :
  (_validate_positive a "raise" context = (Return tt, []) <->
   Forall (fun x => PrimFloat.ltb 0 x = true \/ PrimFloat.is_nan x = true)
     (data a)) /\
  (_validate_positive a "raise" context = (Return tt, []) \/
   _validate_positive a "raise" context
     = (Raise (ValueError (invalid_msg context)), [])).
Proof.
  rewrite validate_raise, <- any_le0_false_iff.
  destruct (any_le0 a); split;
    first [ now left | now right | split; [discriminate | reflexivity]
          | split; [discriminate | discriminate] | split; reflexivity ].
Qed.

(** X2: a call under mode ["raise"] raises [ValueError], with the message
    that names [context_name f], when the function validates and the
    argument has an element [<= 0]; in every other case it does what the
    call under mode ["ignore"] does. *)
Theorem raise_mode_outcome (f : converter) (value : ArrayLike) :
  call log10 pow f value "raise" =
    if takes_mode f && has_nonpositive value
    then (Raise (ValueError (invalid_msg (context_name f))), [])
    else call log10 pow f value "ignore".
Proof.
  destruct f; cbn [call takes_mode context_name andb]; try reflexivity;
    unfold_converters; unfold has_nonpositive;
    destruct (asanyarray value) as [a|e]; try reflexivity;
    cbn [lift bind]; rewrite validate_raise, validate_ignore;
    destruct (any_le0 a); reflexivity.
Qed.

(** X3: a call under mode ["warn"] has the outcome of the call under mode
    ["ignore"], so it never raises [ValueError]; the validation step calls
    [warnings.warn] once, with the message that names [context_name f], when
    the function validates and the argument has an element [<= 0], and not
    at all otherwise; under ["ignore"] it never calls it. (The statement is
    about the module's own call of [warnings.warn]; the warnings NumPy may
    emit during the arithmetic are no part of the model.) *)
Theorem warn_mode_outcome (f : converter) (value : ArrayLike) :
  fst (call log10 pow f value "warn")
    = fst (call log10 pow f value "ignore") /\
  validation_warnings (call log10 pow f value "warn") =
    (if takes_mode f && has_nonpositive value
     then [invalid_msg (context_name f)] else []) /\
  validation_warnings (call log10 pow f value "ignore") = [].
Proof.
  unfold validation_warnings.
  destruct f; cbn [call takes_mode context_name andb];
    unfold_converters; unfold has_nonpositive;
    destruct (asanyarray value) as [a|e]; try (repeat split; reflexivity);
    cbn [lift bind]; rewrite validate_warn, validate_ignore;
    destruct (any_le0 a); repeat split; reflexivity.
Qed.

(** X4: a mode string other than ["raise"] and ["warn"] (a misspelt mode, for
    one) switches the validation off: the call does what the call under
    ["ignore"] does. *)
Theorem other_mode_is_ignore (f : converter) (value : ArrayLike)
    (mode : string) :
  mode <> "raise" -> mode <> "warn" ->
  call log10 pow f value mode = call log10 pow f value "ignore".
Proof.
  intros Hr Hw.
  destruct f; cbn [call]; unfold_converters;
    destruct (asanyarray value) as [a|e]; try reflexivity;
    cbn [lift bind];
    rewrite ?(validate_other a mode _ Hr Hw), ?validate_ignore;
    reflexivity.
Qed.

(** X5: the converters work element by element: under mode ["ignore"], the
    number at position [i] of the result for an argument is the number the
    function returns for the element at position [i] alone. *)
Theorem converters_are_elementwise (f : converter) (value : ArrayLike)
    (a : ndarray) (i : nat) (x : float) :
  asanyarray value = Return a ->
  nth_error (data a) i = Some x ->
  exists vl vx y,
    call log10 pow f value "ignore" = (Return vl, []) /\
    call log10 pow f (AFloat x) "ignore" = (Return vx, []) /\
    elements_of vx = [y] /\
    nth_error (elements_of vl) i = Some y.
Proof.
  intros Ha Hi.
  destruct f; cbn [call]; unfold_converters; rewrite Ha;
    cbn [asanyarray lift bind]; rewrite ?validate_ignore;
    cbn [lift bind ret fst snd app]; rewrite ?np_map_ufunc.
  all: destruct a as [x0|d ds l]; cbn [data] in Hi;
    [ destruct i as [|[|i]]; try discriminate Hi;
      injection Hi as ->; do 3 eexists;
      repeat split; reflexivity
    | do 3 eexists; split; [reflexivity|]; split; [reflexivity|];
      split; [reflexivity|];
      cbn [ufunc item_if_0d elements_of data];
      exact (map_nth_error _ i l Hi) ].
Qed.

(** X6: [freq_Hz_to_wavelength_m] and [wavelength_m_to_freq_Hz] are one and
    the same map: under mode ["ignore"] the calls are equal, and under any
    mode they return the same values and raise in the same cases (the name
    in the message apart). *)
Theorem frequency_and_wavelength_same_map (value : ArrayLike)
    (mode : string) :
  freq_Hz_to_wavelength_m value "ignore"
    = wavelength_m_to_freq_Hz value "ignore" /\
  (forall v,
     fst (freq_Hz_to_wavelength_m value mode) = Return v <->
     fst (wavelength_m_to_freq_Hz value mode) = Return v) /\
  length (snd (freq_Hz_to_wavelength_m value mode))
    = length (snd (wavelength_m_to_freq_Hz value mode)).
Proof.
  unfold_converters.
  destruct (asanyarray value) as [a|e]; cbn [lift bind].
  - rewrite !validate_ignore. split; [reflexivity|].
    unfold _validate_positive.
    destruct (mode =? "ignore")%string; [now split|].
    destruct (any_le0 a); [|now split].
    destruct (mode =? "raise")%string; [split; [split; discriminate|reflexivity]|].
    destruct (mode =? "warn")%string; now split.
  - now split.
Qed.

(** X7: [watt2dbm] returns what [lin2db] returns with 30 added to each
    number, and [freq_Hz_to_wavelength_nm] what [freq_Hz_to_wavelength_m]
    returns with each number multiplied by 1e9; each raises when the other
    does, [ValueError] under its own name. *)
Theorem offsets_of_base_converters (value : ArrayLike) (mode : string) :
  fst (watt2dbm log10 value mode) =
    match fst (lin2db log10 value mode) with
    | Return v => Return (py_map (fun y => y + 30)%float v)
    | Raise (ValueError _) => Raise (ValueError (invalid_msg "watt2dbm"))
    | Raise e => Raise e
    end /\
  fst (freq_Hz_to_wavelength_nm value mode) =
    match fst (freq_Hz_to_wavelength_m value mode) with
    | Return v => Return (py_map (fun y => y * 1e9)%float v)
    | Raise (ValueError _) =>
        Raise (ValueError (invalid_msg "freq_Hz_to_wavelength_nm"))
    | Raise e => Raise e
    end.
Proof.
  unfold_converters.
  destruct (asanyarray value) as [a|e] eqn:Ha; cbn [lift bind].
  - unfold _validate_positive.
    destruct (mode =? "ignore")%string;
      [| destruct (any_le0 a);
         [destruct (mode =? "raise")%string;
          [| destruct (mode =? "warn")%string] |] ].
    all: cbn [bind ret raise warn fst snd]; rewrite ?np_map_ufunc.
    all: try (split; reflexivity).
    all: destruct a as [x|d ds l]; cbn; rewrite ?map_map; split; reflexivity.
  - apply asanyarray_raises in Ha as (n & _ & Hn).
    unfold int_to_float in Hn.
    destruct (is_infinity _); [|discriminate].
    injection Hn as <-. split; reflexivity.
Qed.

(** X8: [dbm2watt] is [db2lin] after 30 is subtracted from each element of
    the argument, and under mode ["ignore"] [wavelength_nm_to_freq_Hz] is
    [wavelength_m_to_freq_Hz] after each element is multiplied by 1e-9 (for
    arguments that are floats, lists or arrays). *)
Theorem shifted_arguments (value : ArrayLike) :
  is_int value = false ->
  dbm2watt pow value
    = db2lin pow (arg_map (fun x => x - 30)%float value) /\
  wavelength_nm_to_freq_Hz value "ignore"
    = wavelength_m_to_freq_Hz (arg_map (fun x => x * nano)%float value)
        "ignore".
Proof.
  destruct value as [x|n|l|[x|d ds l]]; try discriminate; intros _;
    cbn; rewrite ?map_map, ?length_map; split; reflexivity.
Qed.



End More.



Lemma other_mode_is_ignore_witness :
  call (fun x => x) (fun x _ => x) Lin2db (AFloat (-1)) "Raise"
    = call (fun x => x) (fun x _ => x) Lin2db (AFloat (-1)) "ignore".
Proof.
  apply (other_mode_is_ignore (fun x => x) (fun x _ => x)
           Lin2db (AFloat (-1)) "Raise");
    intros E; discriminate E.
Defined.

Lemma converters_are_elementwise_witness :
  exists vl vx y,
    call (fun x => x) (fun x _ => x) Freq_GHz_to_Hz (AList [1; 2]%float)
      "ignore" = (Return vl, []) /\
    call (fun x => x) (fun x _ => x) Freq_GHz_to_Hz (AFloat 2) "ignore"
      = (Return vx, []) /\
    elements_of vx = [y] /\
    nth_error (elements_of vl) 1 = Some y.
Proof.
  apply (converters_are_elementwise (fun x => x) (fun x _ => x)
           Freq_GHz_to_Hz (AList [1; 2]%float)
           (ArrN 2 [] [1; 2]%float) 1 2%float);
    reflexivity.
Defined.

Lemma shifted_arguments_witness :
  dbm2watt (fun x _ => x) (AList [30; 0]%float)
    = db2lin (fun x _ => x) (AList [0; -30]%float).
Proof.
  apply (shifted_arguments (fun x _ => x) (AList [30; 0]%float)).
  reflexivity.
Defined.

End ConverterMore.

(** * Further properties of the experiment folders *)

Module FolderMore.

Import Folders.
Import FolderFacts.
Local Open Scope string_scope.
Local Open Scope io_scope.

(** ** Case mapping *)

Lemma upper_lower_char c : upper_char (lower_char c) = upper_char c.
Proof. destruct c as [[] [] [] [] [] [] [] []]; reflexivity. Qed.

Lemma lower_lower_char c : lower_char (lower_char c) = lower_char c.
Proof. destruct c as [[] [] [] [] [] [] [] []]; reflexivity. Qed.

Lemma lower_idem s : ascii_lower (ascii_lower s) = ascii_lower s.
Proof.
  induction s as [|c r IH]; simpl; [reflexivity|].
  now rewrite lower_lower_char, IH.
Qed.

Lemma capitalize_of_lower s :
  ascii_capitalize (ascii_lower s) = ascii_capitalize s.
Proof.
  destruct s as [|c r]; simpl; [reflexivity|].
  now rewrite upper_lower_char, lower_idem.
Qed.

(** ** Paths *)

Lemma length_append (a b : string) :
  String.length (a ++ b) = String.length a + String.length b.
Proof. induction a as [|c a IH]; simpl; [reflexivity | now rewrite IH]. Qed.

Lemma append_not_self (p q : string) : q <> "" -> p ++ q <> p.
Proof.
  intros Hq E. apply (f_equal String.length) in E.
  rewrite length_append in E. destruct q; [congruence | simpl in E; lia].
Qed.

Lemma has_sep_basename p : has_sep (basename p) = false.
Proof.
  induction p as [|c r IH]; simpl; [reflexivity|].
  destruct (has_sep r) eqn:Hr; [exact IH|].
  destruct (c =? "/")%char eqn:Hc; [exact Hr|].
  simpl. now rewrite Hc, Hr.
Qed.

Lemma has_sep_app_sep q f : has_sep (q ++ "/" ++ f) = true.
Proof.
  induction q as [|c q IH]; [reflexivity|].
  change (String c q ++ "/" ++ f) with (String c (q ++ "/" ++ f)).
  cbn [has_sep]. rewrite IH. apply orb_true_r.
Qed.

Lemma basename_app_sep q f :
  has_sep f = false -> basename (q ++ "/" ++ f) = f.
Proof.
  intros Hf. induction q as [|c q IH].
  - simpl. now rewrite Hf.
  - change (String c q ++ "/" ++ f) with (String c (q ++ "/" ++ f)).
    cbn [basename]. now rewrite has_sep_app_sep.
Qed.

Lemma basename_no_sep f : has_sep f = false -> basename f = f.
Proof.
  destruct f as [|c r]; simpl; [reflexivity|].
  intros H. apply orb_false_iff in H as [Hc Hr]. now rewrite Hr, Hc.
Qed.

Lemma endswith_sep_split q :
  endswith q sep = true -> exists q', q = q' ++ "/".
Proof.
  unfold sep. induction q as [|c r IH]; simpl; [discriminate|].
  intros H. apply orb_true_iff in H as [H|H].
  - exists "". destruct r; [|destruct (c =? "/")%char; discriminate H].
    apply andb_prop in H as [H _].
    apply Ascii.eqb_eq in H. now subst c.
  - destruct (IH H) as [q' ->]. now exists (String c q').
Qed.

Lemma endswith_app_sep p : endswith (p ++ sep) sep = true.
Proof.
  unfold sep. induction p as [|c p IH]; [reflexivity|].
  change (String c p ++ "/") with (String c (p ++ "/")).
  cbn [endswith]. rewrite IH. apply orb_true_r.
Qed.

Lemma with_sep_closed p :
  with_sep p = "" \/ exists q, with_sep p = q ++ "/".
Proof.
  unfold with_sep.
  destruct (p =? "") eqn:E; simpl.
  - left. now apply String.eqb_eq in E.
  - right. destruct (endswith p sep) eqn:Hs.
    + now apply endswith_sep_split.
    + now exists p.
Qed.

Lemma no_sep_not_abs f : has_sep f = false -> isabs f = false.
Proof.
  unfold isabs, sep. destruct f as [|c r]; simpl; [reflexivity|].
  intros H. apply orb_false_iff in H as [Hc _]. now rewrite Hc.
Qed.

Lemma basename_join p f : has_sep f = false -> basename (join p f) = f.
Proof.
  intros Hf. rewrite (join_relative p f (no_sep_not_abs f Hf)).
  destruct (with_sep_closed p) as [-> | [q ->]].
  - now apply basename_no_sep.
  - rewrite append_assoc. now apply basename_app_sep.
Qed.

(** ** The methods, on any file system *)

Section OnAnyFileSystem.

Context {FS : Type} {OS : FileSystem FS} {STR : StrMethods}.

(** One call of [finish] that returns leaves the object as it was or
    finalizes it under the new path. *)
Lemma finish_step e s m w e1 w1 :
  finish e s m w = (Return e1, w1) ->
  e1 = e \/
  (_finalized e = false /\
   e1 = Build_ExperimentFolder (timestamp e) (folder_name e)
          (new_path e s) true).
Proof.
  destruct (_finalized e) eqn:Hfin.
  - rewrite (finish_finalized e s m w Hfin). intros E. injection E as <- _.
    now left.
  - rewrite (finish_not_finalized e s m w Hfin).
    destruct (log_step e s m w) as [[u|ex] w2]; [|discriminate].
    destruct (os_rename (path e) (new_path e s) (fs w2)) as [[ex fs2]|fs2];
      cbv zeta; [destruct (is_OSError ex); [|discriminate]|];
      intros E; injection E as <- _; [now left | now right].
Qed.

(** X9: for statuses of ASCII characters, [finish] looks at the status only
    up to the case of its letters: two such statuses with the same lower-case
    form give the same status file, the same new name and the same
    outcome. *)
Theorem finish_ignores_case e (s s' m : string) (w : world FS) :
  is_ascii s = true ->
  is_ascii s' = true ->
  ascii_lower s = ascii_lower s' ->
  finish e s m w = finish e s' m w.
Proof.
  intros Hs Hs' E.
  assert (Hlow : lower s = lower s').
  { now rewrite (lower_on_ascii s Hs), (lower_on_ascii s' Hs'). }
  assert (Hcap : capitalize s = capitalize s').
  { rewrite (capitalize_on_ascii s Hs), (capitalize_on_ascii s' Hs').
    now rewrite <- (capitalize_of_lower s), E, capitalize_of_lower. }
  unfold finish. now rewrite Hlow, Hcap.
Qed.

(** X10: when the write of the status file raises, [finish] raises that
    exception, an [OSError] too (the write is outside the [try]); it has made
    the one write call, has not called the rename and has printed nothing,
    and the file system is the one the failed write left. *)
Theorem finish_write_failure_propagates e (s m : string) (w : world FS)
    ex fs1 :
  _finalized e = false ->
  m <> "" ->
  open_write (join (path e) (log_name s)) m (fs w) = inl (ex, fs1) ->
  finish e s m w =
    (Raise ex,
     World fs1 (stdout w)
       (syscalls w ++ [SysWrite (join (path e) (log_name s)) m])%list).
Proof.
  intros Hfin Hm Hw.
  rewrite (finish_not_finalized e s m w Hfin), log_step_eq.
  apply String.eqb_neq in Hm. rewrite Hm. cbv zeta. now rewrite Hw.
Qed.

(** X11: through any calls of [finish] that return, the timestamp and the
    folder name stay as they were; a finalized folder and its world do not
    change at all; and the path is the old one, with the flag as before, or
    the old one with the suffix of one of the calls, once, with the flag
    set. *)
Theorem finish_all_invariants (calls : list (string * string)) :
  forall e (w : world FS) e1 w1,
    finish_all e calls w = (Return e1, w1) ->
    timestamp e1 = timestamp e /\
    folder_name e1 = folder_name e /\
    (_finalized e = true -> e1 = e /\ w1 = w) /\
    ((path e1 = path e /\ _finalized e1 = _finalized e) \/
     (exists s m,
        In (s, m) calls /\ path e1 = new_path e s /\
        _finalized e = false /\ _finalized e1 = true)).
Proof.
  induction calls as [|[s m] rest IH]; intros e w e1 w1 Hrun.
  - injection Hrun as <- <-. repeat split; trivial. now left.
  - cbn [finish_all] in Hrun. unfold bind in Hrun.
    destruct (finish e s m w) as [[e'|ex] w'] eqn:Hone; [|discriminate].
    destruct (finish_step e s m w e' w' Hone) as [-> | [Hfin ->]].
    + destruct (IH e w' e1 w1 Hrun) as (Ht & Hn & Hdone & Hpath).
      split; [exact Ht|]. split; [exact Hn|]. split.
      * intros Hfin. rewrite (finish_finalized e s m w Hfin) in Hone.
        injection Hone as <-. now apply Hdone.
      * destruct Hpath as [Hsame | (s0 & m0 & Hin & Hp & Hf & Hf1)];
          [now left | right].
        exists s0, m0. repeat split; trivial. now right.
    + rewrite finish_all_finalized in Hrun by reflexivity.
      injection Hrun as <- <-. cbn [timestamp folder_name path _finalized].
      split; [reflexivity|]. split; [reflexivity|]. split.
      * intros Hfin'. congruence.
      * right. exists s, m. repeat split; trivial. now left.
Qed.

(** X12: the names over the life of a folder. After the constructor and a
    call of [finish] that finalizes, the path is [base_path] joined with
    [<timestamp>_<tag>] (or [<timestamp>_<version>_<tag>]) and followed by
    an underscore and the capitalized status, while [get_folder_name] still
    returns the name without the status, which is no longer the name of the
    directory. *)
Theorem names_over_the_lifecycle base tag version now s m
    (w w1 w2 : world FS) e e1 :
  init base tag version now w = (Return e, w1) ->
  finish e s m w1 = (Return e1, w2) ->
  _finalized e1 = true ->
  let name :=
    if version =? "" then now ++ "_" ++ tag
    else now ++ "_" ++ version ++ "_" ++ tag in
  get_folder_name e = name /\
  path e = join base name /\
  get_folder_name e1 = name /\
  path e1 = join base name ++ "_" ++ capitalize s /\
  path e1 <> join base (get_folder_name e1) /\
  to_str e1 =
    "ExperimentFolder(" ++ (join base name ++ "_" ++ capitalize s) ++ ")".
Proof.
  intros Hinit Hfinish Hdone name.
  apply init_returns in Hinit.
  assert (Hname : folder_name e = name).
  { subst e name. cbn [folder_name]. now destruct (version =? ""). }
  assert (Hpath : path e = join base name).
  { rewrite <- Hname. now subst e. }
  assert (Hnot : _finalized e = false) by now subst e.
  destruct (finish_step e s m w1 e1 w2 Hfinish) as [-> | [_ ->]];
    [congruence|].
  unfold get_folder_name, to_str, new_path.
  cbn [folder_name path]. rewrite Hname, Hpath.
  repeat split; trivial.
  apply append_not_self. discriminate.
Qed.

(** X13: the base name of [get_path(f)] is [f] for every name [f] without a
    separator, the empty name included; and a base name never holds a
    separator. *)
Theorem basename_of_get_path e (f : string) :
  has_sep f = false ->
  basename (get_path e f) = f /\
  (forall p, has_sep (basename p) = false).
Proof.
  intros Hf. split.
  - unfold get_path. now apply basename_join.
  - apply has_sep_basename.
Qed.

(** X14: [copy_file] without a new name, for a source that exists, makes one
    copy call, to a path directly inside the folder (the folder path, one
    separator, a name without separator) whose base name is the base name of
    the source; an exception of the copy propagates, with the file system as
    the failed copy left it. *)
Theorem copy_file_keeps_base_name e (src : string) (w : world FS) :
  os_path_exists src (fs w) = true ->
  let dst := with_sep (path e) ++ basename src in
  let calls := (syscalls w ++ [SysExists src; SysCopy src dst])%list in
  has_sep (basename src) = false /\
  basename dst = basename src /\
  copy_file e src None w =
    match shutil_copyfile src dst (fs w) with
    | inr fs1 => (Return tt, World fs1 (stdout w) calls)
    | inl (ex, fs1) => (Raise ex, World fs1 (stdout w) calls)
    end.
Proof.
  intros Hsrc dst calls.
  pose proof (has_sep_basename src) as Hb.
  split; [exact Hb|]. split.
  - subst dst. rewrite <- (join_relative (path e) (basename src)
                             (no_sep_not_abs _ Hb)).
    now apply basename_join.
  - unfold copy_file, bind, exists_. rewrite Hsrc. cbn [negb].
    unfold get_path. rewrite (join_relative _ _ (no_sep_not_abs _ Hb)).
    unfold copyfile, sys. cbn [fs stdout syscalls].
    subst calls dst. rewrite <- app_assoc.
    destruct (shutil_copyfile _ _ _) as [[ex fs1]|fs1]; reflexivity.
Qed.

End OnAnyFileSystem.

(** ** The sample run *)

Lemma finish_ignores_case_witness :
  finish sample_folder "FAIL" "boom" sample_created
    = finish sample_folder "fail" "boom" sample_created.
Proof.
  apply (finish_ignores_case (OS := MemFS.memfs) (STR := ascii_case)
           sample_folder "FAIL" "fail" "boom" sample_created);
    reflexivity.
Defined.

Lemma finish_write_failure_propagates_witness :
  finish sample_folder "fail" "boom" sample_world =
    (Raise (OSErr EFileNotFound
              "[Errno 2] No such file or directory: 'results/2023-10-27_14-30-00_sim/Error.txt'"),
     World (fs sample_world) []
       [SysWrite "results/2023-10-27_14-30-00_sim/Error.txt" "boom"]).
Proof.
  apply (finish_write_failure_propagates (OS := MemFS.memfs)
           (STR := ascii_case)
           sample_folder "fail" "boom" sample_world).
  - reflexivity.
  - intros E; discriminate E.
  - reflexivity.
Defined.

Lemma finish_all_invariants_witness :
  exists e1 w1,
    finish_all sample_folder [("fail", "boom"); ("success", "")]
      sample_created = (Return e1, w1) /\
    folder_name e1 = folder_name sample_folder /\
    path e1 = "results/2023-10-27_14-30-00_sim_Fail".
Proof.
  exists (Build_ExperimentFolder "2023-10-27_14-30-00"
            "2023-10-27_14-30-00_sim"
            "results/2023-10-27_14-30-00_sim_Fail" true).
  exists (World sample_renamed []
            [SysWrite "results/2023-10-27_14-30-00_sim/Error.txt" "boom";
             SysRename "results/2023-10-27_14-30-00_sim"
               "results/2023-10-27_14-30-00_sim_Fail"]).
  split; [reflexivity|]. split; [|reflexivity].
  apply (finish_all_invariants (OS := MemFS.memfs) (STR := ascii_case)
           [("fail", "boom"); ("success", "")]
           sample_folder sample_created _ _ eq_refl).
Defined.

Lemma names_over_the_lifecycle_witness :
  exists e1 w2,
    finish sample_folder "fail" "boom"
      (World (fs sample_created) []
         [SysMakedirs "results/2023-10-27_14-30-00_sim"])
      = (Return e1, w2) /\
    get_folder_name e1 = "2023-10-27_14-30-00_sim" /\
    path e1 = "results/2023-10-27_14-30-00_sim_Fail".
Proof.
  exists (Build_ExperimentFolder "2023-10-27_14-30-00"
            "2023-10-27_14-30-00_sim"
            "results/2023-10-27_14-30-00_sim_Fail" true).
  exists (World sample_renamed []
            [SysMakedirs "results/2023-10-27_14-30-00_sim";
             SysWrite "results/2023-10-27_14-30-00_sim/Error.txt" "boom";
             SysRename "results/2023-10-27_14-30-00_sim"
               "results/2023-10-27_14-30-00_sim_Fail"]).
  split; [reflexivity|].
  destruct (names_over_the_lifecycle (OS := MemFS.memfs) (STR := ascii_case)
              "results" "sim" "" "2023-10-27_14-30-00" "fail" "boom"
              sample_world _ _ sample_folder _
              eq_refl eq_refl eq_refl)
    as (_ & _ & Hname & Hpath & _).
  split; [exact Hname | exact Hpath].
Defined.

Lemma basename_of_get_path_witness :
  basename (get_path sample_folder "run.log") = "run.log".
Proof.
  apply (basename_of_get_path sample_folder "run.log"). reflexivity.
Defined.

Lemma copy_file_keeps_base_name_witness :
  basename ("results/2023-10-27_14-30-00_sim/" ++ basename "data/config.yaml")
    = "config.yaml".
Proof.
  apply (copy_file_keeps_base_name (OS := MemFS.memfs)
           sample_folder "data/config.yaml" sample_with_source).
  reflexivity.
Defined.

End FolderMore.
